(** * setup.py of python-rust-util: the packaging script and its effects

    The repository is one script, [setup.py].  It builds the keyword
    arguments of [setuptools.setup] (the descriptor) from literals, two
    module-level lists and the text of [README.md], and hands them to
    [setup] (the build orchestrator).

    The script is embedded as a computation in a state-and-exception monad
    over an explicit environment: the file system seen by the process, its
    working directory, the codec of its locale, the module's global names,
    and the chronological trace of the actions performed.  The two external
    libraries ([setuptools], [setuptools_rust]) are taken as present: the
    orchestrator is a parameter, [RustExtension] and [Binding] are a record
    and an enumeration. *)

From Stdlib Require Import Strings.String Strings.Ascii Strings.Byte.
From Stdlib Require Import Lists.List Arith.PeanoNat Lia.
From stdpp Require Import base option list strings gmap fin_maps.

Local Open Scope string_scope.

(** ** Python values the script handles *)

Module Py.

(** [setuptools_rust.Binding]: the members of the enumeration. *)
Inductive Binding : Set :=
  | PyO3
  | RustCPython
  | NoBinding
  | Exec.

(** [setuptools_rust.RustExtension]: the attributes set from the arguments
    the script passes (target, path to the Cargo manifest, binding). *)
Record RustExtension : Set := {
  target : string;
  path : string;
  binding : Binding
}.

(** Defaults of [RustExtension.__init__] for the arguments left out. *)
Definition default_path : string := "Cargo.toml".
Definition default_binding : Binding := PyO3.

(** [RustExtension(target, path, binding=...)]: [None] stands for an
    argument the caller does not pass. *)
Definition RustExtension_init
    (tgt : string) (p : option string) (b : option Binding) : RustExtension :=
  {| target := tgt;
     path := default default_path p;
     binding := default default_binding b |}.

(** Objects: strings, booleans, lists, extension declarations. *)
#[local] Set Warnings "-register-all".
Inductive value : Type :=
  | VStr (s : string)
  | VBool (b : bool)
  | VList (items : list value)
  | VExt (x : RustExtension).

(** Failures of the build orchestrator named by the documentation. *)
Inductive build_failure : Set :=
  | ToolchainMissing
  | CompileFailure
  | DependencyUnavailable
  | PackagingFailure.

(** Exceptions.  The first three are subclasses of [OSError] and carry the
    file name as it was given to [open]. *)
Inductive exn : Type :=
  | FileNotFoundError (filename : string)
  | PermissionError (filename : string)
  | IsADirectoryError (filename : string)
  | UnicodeDecodeError
  | NameError (name : string)
  | BuildError (kind : build_failure) (msg : string).

Definition is_OSError (e : exn) : bool :=
  match e with
  | FileNotFoundError _ | PermissionError _ | IsADirectoryError _ => true
  | UnicodeDecodeError | NameError _ | BuildError _ _ => false
  end.

End Py.
Export Py.

(** ** The environment of the process *)

(** A node of the file system: a regular file with its bytes and whether
    the process may open it for reading, or a directory. *)
Inductive node : Type :=
  | Regular (may_read : bool) (data : list byte)
  | Directory.

(** [fs] maps absolute paths to nodes; [cwd] is the working directory of the
    invoking process, [script_dir] the directory that holds [setup.py];
    [codec] is the strict decoder of the locale's encoding ([None] on bytes
    that do not decode). *)
Record Env : Type := {
  cwd : string;
  script_dir : string;
  fs : gmap string node;
  codec : list byte → option string
}.

(** The same environment seen from another working directory, with the
    script stored elsewhere, or with one path of the file system changed
    ([None] removes the node). *)
Definition with_cwd (dir : string) (env : Env) : Env :=
  {| cwd := dir; script_dir := script_dir env; fs := fs env; codec := codec env |}.

Definition with_script_dir (dir : string) (env : Env) : Env :=
  {| cwd := cwd env; script_dir := dir; fs := fs env; codec := codec env |}.

(** The same environment under another locale. *)
Definition with_codec (c : list byte → option string) (env : Env) : Env :=
  {| cwd := cwd env; script_dir := script_dir env; fs := fs env; codec := c |}.

Definition with_node (p : string) (n : option node) (env : Env) : Env :=
  {| cwd := cwd env; script_dir := script_dir env;
     fs := match n with Some x => <[p := x]> (fs env) | None => delete p (fs env) end;
     codec := codec env |}.

(** *** Paths *)

Definition slash : ascii := "/"%char.

Definition is_absolute (p : string) : bool :=
  match p with
  | String c _ => Ascii.eqb c slash
  | EmptyString => false
  end.

Fixpoint ends_with_slash (p : string) : bool :=
  match p with
  | EmptyString => false
  | String c EmptyString => Ascii.eqb c slash
  | String _ rest => ends_with_slash rest
  end.

(** The path the system opens for a name given by the process: an absolute
    name is taken as it is, a relative one is looked up from the working
    directory. *)
Definition resolve (dir p : string) : string :=
  if is_absolute p then p
  else if ends_with_slash dir then dir ++ p
  else dir ++ "/" ++ p.

(** *** Text mode *)

Definition CR : ascii := "013"%char.
Definition LF : ascii := "010"%char.

(** Universal newlines, the default of [open] in text mode: on input
    "\r\n" and a lone "\r" are both turned into "\n". *)
Fixpoint universal_newlines (s : string) : string :=
  match s with
  | EmptyString => EmptyString
  | String c rest =>
      if Ascii.eqb c CR then
        match rest with
        | String c' rest' =>
            if Ascii.eqb c' LF then String LF (universal_newlines rest')
            else String LF (universal_newlines rest)
        | EmptyString => String LF EmptyString
        end
      else String c (universal_newlines rest)
  end.

Fixpoint has_CR (s : string) : bool :=
  match s with
  | EmptyString => false
  | String c rest => Ascii.eqb c CR || has_CR rest
  end.

(** *** Codecs

    A Python [str] is represented by the [string] of the code units of its
    UTF-8 encoding, as the string literals of this file are; the literals of
    the script are ASCII.  A codec checks the bytes of a file against its
    encoding (errors='strict') and gives the text they stand for. *)

Definition in_range (lo hi : N) (b : byte) : bool :=
  ((lo <=? Byte.to_N b) && (Byte.to_N b <=? hi))%N.

Definition is_ascii_byte (b : byte) : bool := in_range 0 127 b.

Definition is_continuation (b : byte) : bool := in_range 128 191 b.

(** Second byte of a three-byte sequence: no overlong form after E0, no
    surrogate after ED. *)
Definition second_of_three (b0 b1 : byte) : bool :=
  if (Byte.to_N b0 =? 224)%N then in_range 160 191 b1
  else if (Byte.to_N b0 =? 237)%N then in_range 128 159 b1
  else is_continuation b1.

(** Second byte of a four-byte sequence: no overlong form after F0, nothing
    above U+10FFFF after F4. *)
Definition second_of_four (b0 b1 : byte) : bool :=
  if (Byte.to_N b0 =? 240)%N then in_range 144 191 b1
  else if (Byte.to_N b0 =? 244)%N then in_range 128 143 b1
  else is_continuation b1.

Fixpoint well_formed_utf8 (data : list byte) : bool :=
  match data with
  | [] => true
  | b0 :: rest =>
      if is_ascii_byte b0 then well_formed_utf8 rest
      else if in_range 194 223 b0 then
        match rest with
        | b1 :: rest1 => is_continuation b1 && well_formed_utf8 rest1
        | _ => false
        end
      else if in_range 224 239 b0 then
        match rest with
        | b1 :: b2 :: rest2 =>
            second_of_three b0 b1 && is_continuation b2 && well_formed_utf8 rest2
        | _ => false
        end
      else if in_range 240 244 b0 then
        match rest with
        | b1 :: b2 :: b3 :: rest3 =>
            second_of_four b0 b1 && is_continuation b2 && is_continuation b3
            && well_formed_utf8 rest3
        | _ => false
        end
      else false
  end.

(** The 'utf-8' codec. *)
Definition utf8_codec (data : list byte) : option string :=
  if well_formed_utf8 data then Some (string_of_list_byte data) else None.

(** The 'ascii' codec: bytes from 128 on do not decode. *)
Definition ascii_codec (data : list byte) : option string :=
  if forallb is_ascii_byte data then Some (string_of_list_byte data) else None.

(** ** Actions and traces *)

(** What a process can do to the outside world. *)
Inductive action : Type :=
  | Open (abs_path : string)
  | Read (abs_path : string)
  | Write (abs_path : string) (data : list byte)
  | Spawn (argv : list string)
  | Connect (host : string).

(** An entry of the trace: an action of the script itself, the call of
    [setup] with the descriptor, or an action of the orchestrator. *)
Inductive event : Type :=
  | ByScript (a : action)
  | HandOff (descriptor : gmap string value)
  | ByOrchestrator (a : action).

(** The orchestrator: given the descriptor and the environment it performs
    actions and either returns or raises. *)
Definition Orchestrator : Type :=
  gmap string value → Env → list action * option exn.

(** ** The monad *)

Record State : Type := {
  st_env : Env;
  st_globals : gmap string value;
  st_trace : list event
}.

Definition initial (env : Env) : State :=
  {| st_env := env; st_globals := ∅; st_trace := [] |}.

Definition M (A : Type) : Type := State → (exn + A) * State.

Global Instance M_ret : MRet M := λ A (a : A) st, (inr a, st).

Global Instance M_bind : MBind M := λ A B (f : A → M B) (m : M A) st,
  match m st with
  | (inl e, st') => (inl e, st')
  | (inr a, st') => f a st'
  end.

Definition raise {A : Type} (e : exn) : M A := λ st, (inl e, st).

Definition emit (ev : event) : M unit := λ st,
  (inr (), {| st_env := st_env st; st_globals := st_globals st;
              st_trace := st_trace st ++ [ev] |}).

Definition emit_all (evs : list event) : M unit := λ st,
  (inr (), {| st_env := st_env st; st_globals := st_globals st;
              st_trace := st_trace st ++ evs |}).

Definition get_env : M Env := λ st, (inr (st_env st), st).

(** [NAME = v] at module level. *)
Definition store_global (name : string) (v : value) : M unit := λ st,
  (inr (), {| st_env := st_env st; st_globals := <[name := v]> (st_globals st);
              st_trace := st_trace st |}).

(** A use of [NAME]. *)
Definition load_global (name : string) : M value := λ st,
  match st_globals st !! name with
  | Some v => (inr v, st)
  | None => (inl (NameError name), st)
  end.

(** ** Built-ins *)

(** An open text file: where it is and the bytes it holds. *)
Record file : Type := {
  file_path : string;
  file_data : list byte
}.

(** [open(name)]: mode 'r', text, default encoding and newline. *)
Definition open (name : string) : M file :=
  env ← get_env;
  let p := resolve (cwd env) name in
  emit (ByScript (Open p));;
  match fs env !! p with
  | None => raise (FileNotFoundError name)
  | Some Directory => raise (IsADirectoryError name)
  | Some (Regular false _) => raise (PermissionError name)
  | Some (Regular true data) => mret {| file_path := p; file_data := data |}
  end.

(** [f.read()]: everything up to the end of the file, decoded. *)
Definition read (f : file) : M string :=
  env ← get_env;
  emit (ByScript (Read (file_path f)));;
  match codec env (file_data f) with
  | None => raise UnicodeDecodeError
  | Some text => mret (universal_newlines text)
  end.

(** ** The script *)

(** Lines 3 to 7 import [subprocess], [sys], [setup], [Binding] and
    [RustExtension]; the first two are never used. *)

(** Lines 9 to 11. *)
Definition RUST_EXTENSIONS : value :=
  VList [VExt (RustExtension_init "rust_util" (Some "rust_util/Cargo.toml")
                 (Some RustCPython))].

(** Line 13. *)
Definition SETUP_REQUIRES : value :=
  VList [VStr "setuptools"; VStr "setuptools-rust"; VStr "wheel"].

Section Script.

(** [setup], imported from [setuptools]. *)
Variable setup : Orchestrator.

(** The call of [setup] with the descriptor as its keyword arguments. *)
Definition call_setup (descriptor : gmap string value) : M unit :=
  env ← get_env;
  emit (HandOff descriptor);;
  let '(actions, outcome) := setup descriptor env in
  emit_all (ByOrchestrator <$> actions);;
  match outcome with
  | Some e => raise e
  | None => mret ()
  end.

(** Lines 9 to 13: the two module-level assignments. *)
Definition module_globals : M unit :=
  store_global "RUST_EXTENSIONS" RUST_EXTENSIONS;;
  store_global "SETUP_REQUIRES" SETUP_REQUIRES.

(** Lines 15 to 23: the keyword arguments, evaluated from left to right. *)
Definition keyword_arguments : M (gmap string value) :=
  let name := VStr "rust_util" in
  let author := VStr "Jake Curran" in
  let author_email := VStr "jake@jakecurran.com" in
  let description :=
    VStr "Util package to enable Rust code as part of a Python project." in
  f ← open "README.md";
  long_description ← read f;
  let version := VStr "1.0" in
  rust_extensions ← load_global "RUST_EXTENSIONS";
  setup_requires ← load_global "SETUP_REQUIRES";
  let zip_safe := VBool false in
  mret (list_to_map
          [("name", name);
           ("author", author);
           ("author_email", author_email);
           ("description", description);
           ("long_description", VStr long_description);
           ("version", version);
           ("rust_extensions", rust_extensions);
           ("setup_requires", setup_requires);
           ("zip_safe", zip_safe)]).

(** Building the descriptor: everything before the call of [setup]. *)
Definition construct : M (gmap string value) :=
  module_globals;;
  keyword_arguments.

(** The whole script. *)
Definition script : M unit :=
  descriptor ← construct;
  call_setup descriptor.

Definition run (env : Env) : (exn + unit) * State := script (initial env).

End Script.

(** Building the descriptor in [env]. *)
Definition constructed (env : Env) : (exn + gmap string value) * State :=
  construct (initial env).


(** ** Observations on environments and traces *)

(** The long-description resource: the name the script gives to [open], the
    path the system opens, and the node found there. *)
Definition resource_name : string := "README.md".

Definition resource_path (env : Env) : string := resolve (cwd env) resource_name.

Definition resource (env : Env) : option node := fs env !! resource_path env.

(** The descriptors handed to the orchestrator, in order. *)
Fixpoint handed_off (tr : list event) : list (gmap string value) :=
  match tr with
  | [] => []
  | HandOff d :: rest => d :: handed_off rest
  | _ :: rest => handed_off rest
  end.

(** The actions of the script itself, in order. *)
Fixpoint own_actions (tr : list event) : list action :=
  match tr with
  | [] => []
  | ByScript a :: rest => a :: own_actions rest
  | _ :: rest => own_actions rest
  end.

(** The actions of the orchestrator, in order. *)
Fixpoint orchestrator_actions (tr : list event) : list action :=
  match tr with
  | [] => []
  | ByOrchestrator a :: rest => a :: orchestrator_actions rest
  | _ :: rest => orchestrator_actions rest
  end.

Definition is_open (a : action) : bool :=
  match a with Open _ => true | _ => false end.

Definition is_read (a : action) : bool :=
  match a with Read _ => true | _ => false end.

(** Network access, process creation, file writes. *)
Definition is_outward (a : action) : bool :=
  match a with
  | Write _ _ | Spawn _ | Connect _ => true
  | Open _ | Read _ => false
  end.

Fixpoint count_if {A : Type} (p : A → bool) (l : list A) : nat :=
  match l with
  | [] => 0
  | a :: rest => (if p a then 1 else 0) + count_if p rest
  end.

(** The state in which the keyword arguments are evaluated. *)
Definition module_state (env : Env) : State := snd (module_globals (initial env)).

(** [st] with [evs] added to its trace. *)
Definition traced (st : State) (evs : list event) : State :=
  {| st_env := st_env st; st_globals := st_globals st;
     st_trace := st_trace st ++ evs |}.

(** The trace of a construction stopped by [open], and of one that went on
    to [read]. *)
Definition opened (env : Env) : list event :=
  [ByScript (Open (resource_path env))].

Definition opened_and_read (env : Env) : list event :=
  [ByScript (Open (resource_path env)); ByScript (Read (resource_path env))].

(** The system lets the process open the resource for reading. *)
Definition openable (env : Env) : bool :=
  match resource env with
  | Some (Regular true _) => true
  | Some (Regular false _) | Some Directory | None => false
  end.

(** ** Sample environments and orchestrators *)

Module Sample.

Definition CRLF : string := String CR (String LF EmptyString).

(** A checkout of the project with the given bytes in its README. *)
Definition checkout (readme : list byte) : Env :=
  {| cwd := "/home/jake/python-rust-util";
     script_dir := "/home/jake/python-rust-util";
     fs := {[ "/home/jake/python-rust-util/README.md" := Regular true readme ]};
     codec := utf8_codec |}.

(** README.md holds the single character T. *)
Definition env_T : Env := checkout (list_byte_of_string "T").

(** README.md holds T followed by a DOS line ending. *)
Definition env_crlf : Env := checkout (list_byte_of_string ("T" ++ CRLF)).

(** README.md holds a byte that is no ASCII (and no UTF-8) text. *)
Definition env_undecodable : Env := checkout [xff].

(** No README.md in the working directory. *)
Definition env_missing : Env :=
  {| cwd := "/home/jake/python-rust-util";
     script_dir := "/home/jake/python-rust-util";
     fs := ∅;
     codec := utf8_codec |}.

(** README.md without read permission. *)
Definition env_denied : Env :=
  {| cwd := "/home/jake/python-rust-util";
     script_dir := "/home/jake/python-rust-util";
     fs := {[ "/home/jake/python-rust-util/README.md" :=
                Regular false (list_byte_of_string "T") ]};
     codec := utf8_codec |}.

(** Two directories with a README each; the script lives in the first. *)
Definition env_two_readmes : Env :=
  {| cwd := "/work/a";
     script_dir := "/work/a";
     fs := {[ "/work/a/README.md" := Regular true (list_byte_of_string "A");
              "/work/b/README.md" := Regular true (list_byte_of_string "B") ]};
     codec := utf8_codec |}.

(** The same README seen from another checkout, with more files around
    and the script started from elsewhere. *)
Definition env_T_elsewhere : Env :=
  {| cwd := "/srv/build";
     script_dir := "/opt/scripts";
     fs := {[ "/srv/build/README.md" := Regular true (list_byte_of_string "T");
              "/srv/build/rust_util/Cargo.toml" := Regular true [];
              "/srv/build/rust_util" := Directory ]};
     codec := utf8_codec |}.

(** An orchestrator that runs cargo and writes an archive. *)
Definition building_setup : Orchestrator := λ _ env,
  ([Connect "crates.io";
    Spawn ["cargo"; "build"; "--manifest-path"; "rust_util/Cargo.toml"];
    Write (resolve (cwd env) "dist/rust_util-1.0.tar.gz") []],
   None).

(** An orchestrator that finds no Rust toolchain. *)
Definition failing_setup : Orchestrator := λ _ _,
  ([Spawn ["cargo"; "--version"]],
   Some (BuildError ToolchainMissing "cargo not found")).

End Sample.

(** ** Equations of the primitives *)

Section Equations.

Lemma bind_eq {A B : Type} (m : M A) (f : A → M B) (st : State) :
  (m ≫= f) st =
    match m st with
    | (inl e, st') => (inl e, st')
    | (inr a, st') => f a st'
    end.
Proof. reflexivity. Qed.

Lemma open_eq (name : string) (st : State) :
  open name st =
    let p := resolve (cwd (st_env st)) name in
    let st' := traced st [ByScript (Open p)] in
    match fs (st_env st) !! p with
    | None => (inl (FileNotFoundError name), st')
    | Some Directory => (inl (IsADirectoryError name), st')
    | Some (Regular false _) => (inl (PermissionError name), st')
    | Some (Regular true data) => (inr {| file_path := p; file_data := data |}, st')
    end.
Proof.
  unfold open. rewrite !bind_eq. cbn.
  destruct (fs (st_env st) !! _) as [[[] data|]|]; reflexivity.
Qed.

Lemma read_eq (f : file) (st : State) :
  read f st =
    let st' := traced st [ByScript (Read (file_path f))] in
    match codec (st_env st) (file_data f) with
    | None => (inl UnicodeDecodeError, st')
    | Some text => (inr (universal_newlines text), st')
    end.
Proof.
  unfold read. rewrite !bind_eq. cbn.
  destruct (codec (st_env st) (file_data f)); reflexivity.
Qed.

Lemma call_setup_eq (setup : Orchestrator) (d : gmap string value) (st : State) :
  call_setup setup d st =
    let st' := traced st (HandOff d :: (ByOrchestrator <$> fst (setup d (st_env st)))) in
    match snd (setup d (st_env st)) with
    | Some e => (inl e, st')
    | None => (inr (), st')
    end.
Proof.
  unfold call_setup. rewrite !bind_eq. cbn.
  destruct (setup d (st_env st)) as [actions [e|]];
    unfold mbind, M_bind, mret, M_ret, emit, emit_all, raise, traced; cbn;
    rewrite <- app_assoc; reflexivity.
Qed.

Lemma module_state_env (env : Env) : st_env (module_state env) = env.
Proof. reflexivity. Qed.

Lemma module_state_trace (env : Env) : st_trace (module_state env) = [].
Proof. reflexivity. Qed.

Lemma module_state_RUST_EXTENSIONS (env : Env) :
  st_globals (module_state env) !! "RUST_EXTENSIONS" =
    Some (VList [VExt {| target := "rust_util"; path := "rust_util/Cargo.toml";
                         binding := RustCPython |}]).
Proof.
  unfold module_state, module_globals. rewrite bind_eq. cbn.
  rewrite lookup_insert_ne by discriminate. apply lookup_insert_eq.
Qed.

Lemma module_state_SETUP_REQUIRES (env : Env) :
  st_globals (module_state env) !! "SETUP_REQUIRES" =
    Some (VList [VStr "setuptools"; VStr "setuptools-rust"; VStr "wheel"]).
Proof.
  unfold module_state, module_globals. rewrite bind_eq. cbn.
  apply lookup_insert_eq.
Qed.

Lemma constructed_eq (env : Env) :
  constructed env = keyword_arguments (module_state env).
Proof. reflexivity. Qed.

Lemma run_eq (setup : Orchestrator) (env : Env) :
  run setup env =
    match constructed env with
    | (inl e, st) => (inl e, st)
    | (inr d, st) => call_setup setup d st
    end.
Proof. reflexivity. Qed.

End Equations.

(** ** The five ways the construction can go *)

Section Cases.

Variable env : Env.

Lemma traced_traced (st : State) (evs evs' : list event) :
  traced (traced st evs) evs' = traced st (evs ++ evs').
Proof. unfold traced; cbn. by rewrite <- app_assoc. Qed.

Lemma traced_env (st : State) (evs : list event) :
  st_env (traced st evs) = st_env st.
Proof. reflexivity. Qed.

Lemma traced_globals (st : State) (evs : list event) :
  st_globals (traced st evs) = st_globals st.
Proof. reflexivity. Qed.

Lemma traced_trace (st : State) (evs : list event) :
  st_trace (traced st evs) = (st_trace st ++ evs)%list.
Proof. reflexivity. Qed.

(** Evaluate [open('README.md')] on the node found at the resource path. *)
Ltac open_resource Hnode :=
  rewrite constructed_eq; unfold keyword_arguments;
  rewrite bind_eq, open_eq; cbv zeta; rewrite module_state_env;
  fold resource_name; fold (resource_path env); fold (resource env);
  rewrite Hnode.

(** Evaluate [.read()] on the file just opened. *)
Ltac read_resource Hcodec :=
  rewrite bind_eq, read_eq; cbv zeta; cbn [file_path file_data];
  rewrite traced_env, module_state_env, Hcodec, traced_traced.

Lemma constructed_absent :
  resource env = None →
  constructed env = (inl (FileNotFoundError resource_name),
                     traced (module_state env) (opened env)).
Proof. intros Hnode. by open_resource Hnode. Qed.

Lemma constructed_directory :
  resource env = Some Directory →
  constructed env = (inl (IsADirectoryError resource_name),
                     traced (module_state env) (opened env)).
Proof. intros Hnode. by open_resource Hnode. Qed.

Lemma constructed_denied (data : list byte) :
  resource env = Some (Regular false data) →
  constructed env = (inl (PermissionError resource_name),
                     traced (module_state env) (opened env)).
Proof. intros Hnode. by open_resource Hnode. Qed.

Lemma constructed_undecodable (data : list byte) :
  resource env = Some (Regular true data) →
  codec env data = None →
  constructed env = (inl UnicodeDecodeError,
                     traced (module_state env) (opened_and_read env)).
Proof.
  intros Hnode Hcodec. open_resource Hnode. by read_resource Hcodec.
Qed.

Lemma constructed_readable (data : list byte) (text : string) :
  resource env = Some (Regular true data) →
  codec env data = Some text →
  constructed env =
    (inr (list_to_map
            [("name", VStr "rust_util");
             ("author", VStr "Jake Curran");
             ("author_email", VStr "jake@jakecurran.com");
             ("description",
               VStr "Util package to enable Rust code as part of a Python project.");
             ("long_description", VStr (universal_newlines text));
             ("version", VStr "1.0");
             ("rust_extensions",
               VList [VExt {| target := "rust_util"; path := "rust_util/Cargo.toml";
                              binding := RustCPython |}]);
             ("setup_requires",
               VList [VStr "setuptools"; VStr "setuptools-rust"; VStr "wheel"]);
             ("zip_safe", VBool false)]),
     traced (module_state env) (opened_and_read env)).
Proof.
  intros Hnode Hcodec. open_resource Hnode. read_resource Hcodec.
  rewrite bind_eq. unfold load_global at 1.
  rewrite traced_globals, module_state_RUST_EXTENSIONS.
  rewrite bind_eq. unfold load_global at 1.
  rewrite traced_globals, module_state_SETUP_REQUIRES.
  reflexivity.
Qed.

End Cases.

(** Case analysis on the node at the resource path and on its decoding,
    with the matching equation for [constructed env] as [Hc]. *)
Ltac construction_cases env :=
  let data := fresh "data" in
  let text := fresh "text" in
  let Hnode := fresh "Hnode" in
  let Hcodec := fresh "Hcodec" in
  destruct (resource env) as [[[] data|]|] eqn:Hnode;
  [ destruct (codec env data) as [text|] eqn:Hcodec;
    [ pose proof (constructed_readable env data text Hnode Hcodec) as Hc
    | pose proof (constructed_undecodable env data Hnode Hcodec) as Hc ]
  | pose proof (constructed_denied env data Hnode) as Hc
  | pose proof (constructed_directory env Hnode) as Hc
  | pose proof (constructed_absent env Hnode) as Hc ].

(** ** Projections of traces *)

Section Traces.

Lemma handed_off_app (tr tr' : list event) :
  handed_off (tr ++ tr') = (handed_off tr ++ handed_off tr')%list.
Proof.
  induction tr as [|[a|d|a] tr IH]; cbn; [done| |by f_equal|]; exact IH.
Qed.

Lemma own_actions_app (tr tr' : list event) :
  own_actions (tr ++ tr') = (own_actions tr ++ own_actions tr')%list.
Proof.
  induction tr as [|[a|d|a] tr IH]; cbn; [done|by f_equal| |]; exact IH.
Qed.

Lemma orchestrator_actions_app (tr tr' : list event) :
  orchestrator_actions (tr ++ tr') =
    (orchestrator_actions tr ++ orchestrator_actions tr')%list.
Proof.
  induction tr as [|[a|d|a] tr IH]; cbn; [done| | |by f_equal]; exact IH.
Qed.

Lemma handed_off_orchestrator (acts : list action) :
  handed_off (ByOrchestrator <$> acts) = [].
Proof. induction acts as [|a acts IH]; [done|exact IH]. Qed.

Lemma own_actions_orchestrator (acts : list action) :
  own_actions (ByOrchestrator <$> acts) = [].
Proof. induction acts as [|a acts IH]; [done|exact IH]. Qed.

Lemma orchestrator_actions_orchestrator (acts : list action) :
  orchestrator_actions (ByOrchestrator <$> acts) = acts.
Proof. induction acts as [|a acts IH]; [done|]. cbn. by f_equal. Qed.

(** The trace of a run: the trace of the construction, then, when a
    descriptor was built, the hand-off and what the orchestrator does. *)
Lemma run_trace (setup : Orchestrator) (env : Env) :
  st_trace (snd (run setup env)) =
    (st_trace (snd (constructed env)) ++
     match fst (constructed env) with
     | inl _ => []
     | inr d => HandOff d :: (ByOrchestrator <$> fst (setup d env))
     end)%list.
Proof.
  rewrite run_eq. construction_cases env; rewrite Hc; cbn [fst snd];
    rewrite ?app_nil_r; try reflexivity.
  rewrite call_setup_eq. cbv zeta. rewrite traced_env, module_state_env.
  by destruct (snd (setup _ env)).
Qed.

Lemma run_outcome (setup : Orchestrator) (env : Env) :
  fst (run setup env) =
    match fst (constructed env) with
    | inl e => inl e
    | inr d => match snd (setup d env) with Some e => inl e | None => inr () end
    end.
Proof.
  rewrite run_eq. construction_cases env; rewrite Hc; cbn [fst snd];
    try reflexivity.
  rewrite call_setup_eq. cbv zeta. rewrite traced_env, module_state_env.
  by destruct (snd (setup _ env)).
Qed.

Lemma run_globals (setup : Orchestrator) (env : Env) :
  st_globals (snd (run setup env)) = st_globals (module_state env).
Proof.
  rewrite run_eq. construction_cases env; rewrite Hc; try reflexivity.
  rewrite call_setup_eq. cbv zeta. by destruct (snd (setup _ _)).
Qed.

Lemma constructed_globals (env : Env) :
  st_globals (snd (constructed env)) = st_globals (module_state env).
Proof. construction_cases env; by rewrite Hc. Qed.

End Traces.

(** ** Summaries of a run *)

(** The outcome of the construction is a function of the node at the
    resource path and of the codec. *)
Lemma constructed_outcome_congr (env1 env2 : Env) :
  resource env1 = resource env2 →
  codec env1 = codec env2 →
  fst (constructed env1) = fst (constructed env2).
Proof.
  construction_cases env1; rewrite Hc; clear Hc; intros Hres Hcodec';
    symmetry in Hres; try rewrite Hcodec' in Hcodec.
  - by rewrite (constructed_readable env2 data text Hres Hcodec).
  - by rewrite (constructed_undecodable env2 data Hres Hcodec).
  - by rewrite (constructed_denied env2 data Hres).
  - by rewrite (constructed_directory env2 Hres).
  - by rewrite (constructed_absent env2 Hres).
Qed.

(** The trace of the construction: the open, and the read when the file
    could be opened. *)
Lemma constructed_trace (env : Env) :
  st_trace (snd (constructed env)) =
    if openable env then opened_and_read env else opened env.
Proof.
  unfold openable. construction_cases env; by rewrite Hc.
Qed.

Lemma constructed_env (env : Env) : st_env (snd (constructed env)) = env.
Proof. construction_cases env; by rewrite Hc. Qed.

Lemma handed_off_constructed (env : Env) :
  handed_off (st_trace (snd (constructed env))) = [].
Proof. rewrite constructed_trace. by destruct (openable env). Qed.

(** What reaches the orchestrator: the descriptor built, if one was. *)
Lemma handed_off_run (setup : Orchestrator) (env : Env) :
  handed_off (st_trace (snd (run setup env))) =
    match fst (constructed env) with
    | inl _ => []
    | inr d => [d]
    end.
Proof.
  rewrite run_trace, handed_off_app, handed_off_constructed.
  destruct (fst (constructed env)) as [e|d]; [done|].
  cbn [handed_off app]. by rewrite handed_off_orchestrator.
Qed.

(** ** The script on sample inputs *)

Module Examples.
Import Sample.

Example newlines_translated :
  universal_newlines ("a" ++ CRLF ++ "b" ++ String CR "c" ++ String LF "")
  = "a" ++ String LF "b" ++ String LF "c" ++ String LF "".
Proof. reflexivity. Qed.

Example utf8_accepts_and_rejects :
  map well_formed_utf8
    [[x54]; [xc3; xa9]; [xe2; x82; xac]; [xf0; x9f; x98; x80];
     [xff]; [xc0; x80]; [xe2; x82]; [xed; xa0; x80]; [xf4; x90; x80; x80]]
  = [true; true; true; true; false; false; false; false; false].
Proof. reflexivity. Qed.

Example resolve_relative :
  resolve "/home/jake/python-rust-util" "README.md"
  = "/home/jake/python-rust-util/README.md"
  ∧ resolve "/" "README.md" = "/README.md"
  ∧ resolve "/srv/build/" "README.md" = "/srv/build/README.md"
  ∧ resolve "/srv/build" "/etc/motd" = "/etc/motd".
Proof. repeat split; reflexivity. Qed.

(** README.md holds T: the script returns; it opened and read the file,
    handed the descriptor over, and the orchestrator did its work. *)
Example run_env_T :
  ∃ d : gmap string value,
    run building_setup env_T =
      (inr (),
       {| st_env := env_T;
          st_globals :=
            <["SETUP_REQUIRES" := SETUP_REQUIRES]>
              (<["RUST_EXTENSIONS" := RUST_EXTENSIONS]> ∅);
          st_trace :=
            [ByScript (Open "/home/jake/python-rust-util/README.md");
             ByScript (Read "/home/jake/python-rust-util/README.md");
             HandOff d;
             ByOrchestrator (Connect "crates.io");
             ByOrchestrator
               (Spawn ["cargo"; "build"; "--manifest-path"; "rust_util/Cargo.toml"]);
             ByOrchestrator
               (Write "/home/jake/python-rust-util/dist/rust_util-1.0.tar.gz" [])] |})
    ∧ d !! "long_description" = Some (VStr "T").
Proof. eexists. split; reflexivity. Qed.

Example run_env_missing :
  run building_setup env_missing =
    (inl (FileNotFoundError "README.md"),
     {| st_env := env_missing;
        st_globals :=
          <["SETUP_REQUIRES" := SETUP_REQUIRES]>
            (<["RUST_EXTENSIONS" := RUST_EXTENSIONS]> ∅);
        st_trace := [ByScript (Open "/home/jake/python-rust-util/README.md")] |}).
Proof. reflexivity. Qed.

Example run_env_denied :
  fst (run building_setup env_denied) = inl (PermissionError "README.md")
  ∧ st_trace (snd (run building_setup env_denied))
    = [ByScript (Open "/home/jake/python-rust-util/README.md")].
Proof. split; reflexivity. Qed.

(** A README in UTF-8 with a letter outside ASCII, read under a locale whose
    encoding is ASCII. *)
Example run_utf8_readme_ascii_locale :
  let env := {| cwd := cwd env_T; script_dir := script_dir env_T;
                fs := fs (checkout [xc3; xa9]); codec := ascii_codec |} in
  fst (run building_setup env) = inl UnicodeDecodeError
  ∧ fst (run building_setup (checkout [xc3; xa9])) = inr ().
Proof. split; reflexivity. Qed.

End Examples.

(** ** Text read from the resource *)

(** Both codecs hand back the bytes they accept: the text is the content. *)
Lemma utf8_codec_content (data : list byte) (text : string) :
  utf8_codec data = Some text → text = string_of_list_byte data.
Proof. unfold utf8_codec. destruct (well_formed_utf8 data); congruence. Qed.

Lemma ascii_codec_content (data : list byte) (text : string) :
  ascii_codec data = Some text → text = string_of_list_byte data.
Proof. unfold ascii_codec. destruct (forallb is_ascii_byte data); congruence. Qed.

(** Text that the 'ascii' codec decodes, the 'utf-8' codec decodes alike. *)
Lemma ascii_codec_utf8_codec (data : list byte) (text : string) :
  ascii_codec data = Some text → utf8_codec data = Some text.
Proof.
  unfold ascii_codec, utf8_codec.
  destruct (forallb is_ascii_byte data) eqn:Hascii; [|discriminate].
  intros Htext. enough (well_formed_utf8 data = true) as -> by exact Htext.
  clear Htext. induction data as [|b data IH]; [reflexivity|].
  cbn in Hascii. apply andb_prop in Hascii as [Hb Hdata].
  cbn [well_formed_utf8]. rewrite Hb. by apply IH.
Qed.

(** ** The fields of the descriptor *)

Lemma universal_newlines_no_CR (s : string) :
  has_CR s = false → universal_newlines s = s.
Proof.
  induction s as [|c s IH]; [done|]. cbn.
  destruct (Ascii.eqb c CR); [done|]. cbn. intros Hs. by rewrite IH.
Qed.

(** C1, as the code has it: in every environment in which README.md is
    present, may be read, and holds bytes that the codec of the locale
    decodes, the construction returns a descriptor, that descriptor is the
    one handed to the orchestrator, it has exactly the nine declared keys,
    and name, author, author_email, description, version, rust_extensions
    (one target, rust_util, with manifest rust_util/Cargo.toml),
    setup_requires and zip_safe are the literals of the script. *)
Theorem descriptor_fields_literal
    (setup : Orchestrator) (env : Env) (data : list byte) (text : string) :
  resource env = Some (Regular true data) →
  codec env data = Some text →
  ∃ d : gmap string value,
    fst (constructed env) = inr d ∧
    handed_off (st_trace (snd (run setup env))) = [d] ∧
    dom d = list_to_set
              ["name"; "author"; "author_email"; "description";
               "long_description"; "version"; "rust_extensions";
               "setup_requires"; "zip_safe"] ∧
    d !! "name" = Some (VStr "rust_util") ∧
    d !! "author" = Some (VStr "Jake Curran") ∧
    d !! "author_email" = Some (VStr "jake@jakecurran.com") ∧
    d !! "description" =
      Some (VStr "Util package to enable Rust code as part of a Python project.") ∧
    d !! "version" = Some (VStr "1.0") ∧
    (∃ x : RustExtension,
       d !! "rust_extensions" = Some (VList [VExt x]) ∧
       target x = "rust_util" ∧ path x = "rust_util/Cargo.toml") ∧
    d !! "setup_requires" =
      Some (VList [VStr "setuptools"; VStr "setuptools-rust"; VStr "wheel"]) ∧
    d !! "zip_safe" = Some (VBool false).
Proof.
  intros Hnode Hcodec.
  pose proof (constructed_readable env data text Hnode Hcodec) as Hc.
  eexists. split; [by rewrite Hc|].
  split; [by rewrite handed_off_run, Hc|].
  split; [reflexivity|].
  repeat split; try reflexivity.
  eexists. repeat split; reflexivity.
Qed.

Lemma descriptor_fields_literal_witness :
  resource Sample.env_T = Some (Regular true [x54]) ∧
  codec Sample.env_T [x54] = Some "T" ∧
  ∃ d : gmap string value,
    fst (constructed Sample.env_T) = inr d ∧
    handed_off (st_trace (snd (run Sample.building_setup Sample.env_T))) = [d] ∧
    d !! "name" = Some (VStr "rust_util") ∧
    d !! "author" = Some (VStr "Jake Curran") ∧
    d !! "author_email" = Some (VStr "jake@jakecurran.com") ∧
    d !! "version" = Some (VStr "1.0") ∧
    d !! "setup_requires" =
      Some (VList [VStr "setuptools"; VStr "setuptools-rust"; VStr "wheel"]) ∧
    d !! "zip_safe" = Some (VBool false).
Proof.
  split; [reflexivity|]. split; [reflexivity|].
  destruct (descriptor_fields_literal Sample.building_setup Sample.env_T [x54] "T")
    as (d & Hd & Hoff & _ & Hname & Hauthor & Hmail & _ & Hversion & _ & Hreq & Hzip);
    [reflexivity|reflexivity|].
  exists d. repeat split; assumption.
Defined.

(** C1, as stated, fails: README.md is present and the process may read it,
    but its only byte does not decode; [read] raises UnicodeDecodeError, no
    descriptor is built and nothing is handed to the orchestrator. *)
Lemma undecodable_readme_no_descriptor :
  resource Sample.env_undecodable = Some (Regular true [xff]) ∧
  openable Sample.env_undecodable = true ∧
  fst (constructed Sample.env_undecodable) = inl UnicodeDecodeError ∧
  handed_off
    (st_trace (snd (run Sample.building_setup Sample.env_undecodable))) = [].
Proof. repeat split; reflexivity. Qed.

(** C2, as the code has it: when README.md is present, may be read and its
    bytes decode to [text], the long_description of the descriptor built and
    handed over is [text] after universal-newline translation; it is [text]
    itself when [text] has no carriage return, and so it is T when the
    file holds T. *)
Theorem long_description_text_mode
    (setup : Orchestrator) (env : Env) (data : list byte) (text : string) :
  resource env = Some (Regular true data) →
  codec env data = Some text →
  ∃ d : gmap string value,
    fst (constructed env) = inr d ∧
    handed_off (st_trace (snd (run setup env))) = [d] ∧
    d !! "long_description" = Some (VStr (universal_newlines text)) ∧
    (has_CR text = false → d !! "long_description" = Some (VStr text)) ∧
    (text = "T" → d !! "long_description" = Some (VStr "T")).
Proof.
  intros Hnode Hcodec.
  pose proof (constructed_readable env data text Hnode Hcodec) as Hc.
  eexists. split; [by rewrite Hc|].
  split; [by rewrite handed_off_run, Hc|].
  split; [reflexivity|]. split.
  - intros Hs. rewrite <- (universal_newlines_no_CR text Hs) at 2. reflexivity.
  - intros ->. reflexivity.
Qed.

Lemma long_description_text_mode_witness :
  resource Sample.env_T = Some (Regular true [x54]) ∧
  codec Sample.env_T [x54] = Some "T" ∧
  ∃ d : gmap string value,
    fst (constructed Sample.env_T) = inr d ∧
    handed_off (st_trace (snd (run Sample.building_setup Sample.env_T))) = [d] ∧
    d !! "long_description" = Some (VStr "T").
Proof.
  split; [reflexivity|]. split; [reflexivity|].
  destruct (long_description_text_mode Sample.building_setup Sample.env_T [x54] "T")
    as (d & Hd & Hoff & _ & _ & HT); [reflexivity|reflexivity|].
  exists d. repeat split; [assumption|assumption|]. exact (HT eq_refl).
Defined.

(** C2, as stated, fails: README.md holds T followed by CR LF; the
    long_description is T followed by LF, not the content of the file. *)
Lemma long_description_crlf_translated :
  resource Sample.env_crlf = Some (Regular true [x54; x0d; x0a]) ∧
  codec Sample.env_crlf [x54; x0d; x0a] = Some ("T" ++ Sample.CRLF) ∧
  ∃ d : gmap string value,
    fst (constructed Sample.env_crlf) = inr d ∧
    d !! "long_description" = Some (VStr (String "T" (String LF EmptyString))) ∧
    d !! "long_description" ≠ Some (VStr ("T" ++ Sample.CRLF)).
Proof.
  split; [reflexivity|]. split; [reflexivity|].
  eexists. split; [reflexivity|]. split; [reflexivity|].
  intros Heq. apply (inj Some) in Heq. discriminate Heq.
Qed.

(** ** Failure to open the resource *)

(** C3: in every environment in which README.md is absent or cannot be
    opened for reading (no permission, or a directory), the run ends with an
    exception of the OSError family (FileNotFoundError when absent,
    IsADirectoryError on a directory, PermissionError otherwise); the
    attempt to open the file is the only entry of the trace, so nothing is
    handed to the orchestrator and the orchestrator does nothing. *)
Theorem unreadable_resource_fails_first (setup : Orchestrator) (env : Env) :
  openable env = false →
  ∃ e : exn,
    fst (run setup env) = inl e ∧
    is_OSError e = true ∧
    e = match resource env with
        | None => FileNotFoundError "README.md"
        | Some Directory => IsADirectoryError "README.md"
        | Some (Regular _ _) => PermissionError "README.md"
        end ∧
    st_trace (snd (run setup env)) = [ByScript (Open (resource_path env))] ∧
    handed_off (st_trace (snd (run setup env))) = [] ∧
    orchestrator_actions (st_trace (snd (run setup env))) = [].
Proof.
  unfold openable. intros Hopen.
  rewrite run_trace, run_outcome.
  construction_cases env; try discriminate Hopen; rewrite Hc; cbn [fst snd];
    eexists; (split; [reflexivity|]); repeat split; done.
Qed.

Lemma unreadable_resource_fails_first_witness :
  openable Sample.env_missing = false ∧
  ∃ e : exn,
    fst (run Sample.building_setup Sample.env_missing) = inl e ∧
    is_OSError e = true ∧
    st_trace (snd (run Sample.building_setup Sample.env_missing)) =
      [ByScript (Open "/home/jake/python-rust-util/README.md")] ∧
    handed_off (st_trace (snd (run Sample.building_setup Sample.env_missing))) = [].
Proof.
  split; [reflexivity|].
  destruct (unreadable_resource_fails_first Sample.building_setup Sample.env_missing)
    as (e & He & Hos & _ & Htr & Hoff & _); [reflexivity|].
  exists e. repeat split; assumption.
Defined.

(** Beside the failures of [open]: a README that opens but does not decode
    stops the run at [read], with UnicodeDecodeError (a ValueError, no
    OSError), again before anything is handed to the orchestrator. *)
Lemma undecodable_resource_fails_at_read
    (setup : Orchestrator) (env : Env) (data : list byte) :
  resource env = Some (Regular true data) →
  codec env data = None →
  fst (run setup env) = inl UnicodeDecodeError ∧
  is_OSError UnicodeDecodeError = false ∧
  st_trace (snd (run setup env)) =
    [ByScript (Open (resource_path env)); ByScript (Read (resource_path env))].
Proof.
  intros Hnode Hcodec.
  rewrite run_trace, run_outcome, (constructed_undecodable env data Hnode Hcodec).
  done.
Qed.

(** ** Determinism *)

(** C4: two invocations, in environments that hold the same node at the
    resource path and decode with the same codec, get the same outcome from
    the construction, equal in every field when it is a descriptor, and hand
    the same descriptors to whatever orchestrators they run under; the
    construction leaves the environment as it found it. *)
Theorem construction_deterministic
    (setup1 setup2 : Orchestrator) (env1 env2 : Env) :
  resource env1 = resource env2 →
  codec env1 = codec env2 →
  fst (constructed env1) = fst (constructed env2) ∧
  handed_off (st_trace (snd (run setup1 env1))) =
    handed_off (st_trace (snd (run setup2 env2))) ∧
  st_env (snd (constructed env1)) = env1.
Proof.
  intros Hres Hcodec.
  pose proof (constructed_outcome_congr env1 env2 Hres Hcodec) as Hfst.
  split; [exact Hfst|]. split; [|apply constructed_env].
  by rewrite !handed_off_run, Hfst.
Qed.

Lemma construction_deterministic_witness :
  resource Sample.env_T = resource Sample.env_T_elsewhere ∧
  codec Sample.env_T = codec Sample.env_T_elsewhere ∧
  fst (constructed Sample.env_T) = fst (constructed Sample.env_T_elsewhere) ∧
  handed_off (st_trace (snd (run Sample.building_setup Sample.env_T))) =
    handed_off (st_trace (snd (run Sample.failing_setup Sample.env_T_elsewhere))) ∧
  st_env (snd (constructed Sample.env_T)) = Sample.env_T.
Proof.
  split; [reflexivity|]. split; [reflexivity|].
  apply (construction_deterministic Sample.building_setup Sample.failing_setup
           Sample.env_T Sample.env_T_elsewhere); reflexivity.
Defined.

(** ** Effects of the construction *)

(** C5: the trace of the construction is the open of the resource, followed
    by its read when the open succeeded, and nothing else: no write, no
    process, no connection.  The trace of the whole run is that trace
    followed, when a descriptor was built, by the hand-off and then the
    actions of the orchestrator; so every action other than the open and the
    read comes after the hand-off and is the orchestrator's. *)
Theorem construction_only_reads_resource (setup : Orchestrator) (env : Env) :
  let built := st_trace (snd (constructed env)) in
  let whole := st_trace (snd (run setup env)) in
  (built = [ByScript (Open (resource_path env))] ∨
   built = [ByScript (Open (resource_path env));
            ByScript (Read (resource_path env))]) ∧
  (count_if is_read (own_actions built) ≤ 1)%nat ∧
  count_if is_outward (own_actions whole) = 0 ∧
  orchestrator_actions built = [] ∧
  ∃ after : list event,
    whole = (built ++ after)%list ∧
    own_actions after = [] ∧
    (after = [] ∨
     ∃ d : gmap string value,
       fst (constructed env) = inr d ∧
       after = HandOff d :: (ByOrchestrator <$> fst (setup d env))).
Proof.
  cbv zeta. rewrite run_trace, constructed_trace.
  split; [destruct (openable env); auto|].
  split; [destruct (openable env); cbn; lia|].
  split.
  { rewrite own_actions_app.
    destruct (fst (constructed env)) as [e|d]; destruct (openable env);
      cbn; by rewrite ?own_actions_orchestrator. }
  split; [by destruct (openable env)|].
  eexists. split; [reflexivity|].
  destruct (fst (constructed env)) as [e|d].
  - split; [done|by left].
  - split; [cbn; apply own_actions_orchestrator|]. right. by exists d.
Qed.

(** ** One hand-off, no mutation *)

(** C6, as the code has it: the descriptor reaches the orchestrator at most
    once in every run: exactly once, and as it was built, when the
    construction succeeds, and never when it fails.  After the construction
    the script binds no global again, so at the end of the run the lists the
    descriptor shares with RUST_EXTENSIONS and SETUP_REQUIRES are the ones
    it was built with. *)
Theorem descriptor_handed_off_at_most_once (setup : Orchestrator) (env : Env) :
  let final := snd (run setup env) in
  match fst (constructed env) with
  | inr d =>
      handed_off (st_trace final) = [d] ∧
      d !! "rust_extensions" = st_globals final !! "RUST_EXTENSIONS" ∧
      d !! "setup_requires" = st_globals final !! "SETUP_REQUIRES"
  | inl _ => handed_off (st_trace final) = []
  end ∧
  (length (handed_off (st_trace final)) ≤ 1)%nat ∧
  st_globals final = st_globals (snd (constructed env)).
Proof.
  cbv zeta. rewrite handed_off_run, run_globals, constructed_globals.
  split; [|split; [destruct (fst (constructed env)); cbn; lia|done]].
  rewrite module_state_RUST_EXTENSIONS, module_state_SETUP_REQUIRES.
  construction_cases env; rewrite Hc; cbn [fst]; done.
Qed.

(** C6, as stated, fails: without README.md the run hands nothing to the
    orchestrator, so the descriptor is not consumed exactly once. *)
Lemma missing_readme_never_handed_off :
  fst (constructed Sample.env_missing) = inl (FileNotFoundError "README.md") ∧
  handed_off (st_trace (snd (run Sample.building_setup Sample.env_missing))) = [] ∧
  length
    (handed_off (st_trace (snd (run Sample.building_setup Sample.env_missing)))) ≠ 1.
Proof. split; [reflexivity|]. split; [reflexivity|]. cbn. discriminate. Qed.

(** ** Errors of the orchestrator *)

(** C7: when the descriptor is built and the orchestrator raises [e], the
    run ends with [e] itself, whatever [e] is.  (The script has no try
    statement; the embedding has no operation that catches.) *)
Theorem orchestrator_errors_propagate
    (setup : Orchestrator) (env : Env) (d : gmap string value) (e : exn) :
  fst (constructed env) = inr d →
  snd (setup d env) = Some e →
  fst (run setup env) = inl e.
Proof.
  intros Hd He. by rewrite run_outcome, Hd, He.
Qed.

Lemma orchestrator_errors_propagate_witness :
  ∃ d : gmap string value,
    fst (constructed Sample.env_T) = inr d ∧
    snd (Sample.failing_setup d Sample.env_T) =
      Some (BuildError ToolchainMissing "cargo not found") ∧
    fst (run Sample.failing_setup Sample.env_T) =
      inl (BuildError ToolchainMissing "cargo not found").
Proof.
  eexists. split; [reflexivity|]. split; [reflexivity|].
  eapply orchestrator_errors_propagate; reflexivity.
Defined.

(** ** No retry *)

(** C8: in every run the script opens the resource once, reads it once if
    the open succeeded and not at all otherwise, and calls the orchestrator
    at most once; its own actions are exactly these, so a failed open or a
    failed read is not tried again. *)
Theorem resource_read_not_retried (setup : Orchestrator) (env : Env) :
  let own := own_actions (st_trace (snd (run setup env))) in
  own = (if openable env
         then [Open (resource_path env); Read (resource_path env)]
         else [Open (resource_path env)]) ∧
  count_if is_open own = 1 ∧
  (count_if is_read own ≤ 1)%nat ∧
  (length (handed_off (st_trace (snd (run setup env)))) ≤ 1)%nat.
Proof.
  cbv zeta. rewrite handed_off_run, run_trace, own_actions_app, constructed_trace.
  assert (own_actions
            match fst (constructed env) with
            | inl _ => []
            | inr d => HandOff d :: (ByOrchestrator <$> fst (setup d env))
            end = []) as ->.
  { destruct (fst (constructed env)); [done|]. cbn. apply own_actions_orchestrator. }
  rewrite app_nil_r.
  destruct (openable env), (fst (constructed env)); cbn; repeat split; lia.
Qed.

(** ** The binding of the extension *)


(** ** The working directory *)

(** C10: the path opened is README.md under the working directory of the
    process (first entry of every trace); the directory of the script plays
    no part; changing any other path of the file system changes nothing;
    and from one file system and one script directory, three working
    directories give three outcomes: the text of one README, the text of
    another, and FileNotFoundError. *)
Theorem resource_resolved_against_cwd :
  (∀ env : Env,
     resource_path env =
       if ends_with_slash (cwd env) then cwd env ++ "README.md"
       else cwd env ++ "/" ++ "README.md") ∧
  (∀ (setup : Orchestrator) (env : Env),
     head (st_trace (snd (run setup env))) =
       Some (ByScript (Open (resolve (cwd env) "README.md")))) ∧
  (∀ (env : Env) (dir : string),
     fst (constructed (with_script_dir dir env)) = fst (constructed env) ∧
     st_trace (snd (constructed (with_script_dir dir env))) =
       st_trace (snd (constructed env))) ∧
  (∀ (env : Env) (p : string) (n : option node),
     p ≠ resource_path env →
     fst (constructed (with_node p n env)) = fst (constructed env)) ∧
  (∃ d : gmap string value,
     fst (constructed (with_cwd "/work/a" Sample.env_two_readmes)) = inr d ∧
     d !! "long_description" = Some (VStr "A")) ∧
  (∃ d : gmap string value,
     fst (constructed (with_cwd "/work/b" Sample.env_two_readmes)) = inr d ∧
     d !! "long_description" = Some (VStr "B")) ∧
  fst (constructed (with_cwd "/tmp" Sample.env_two_readmes)) =
    inl (FileNotFoundError "README.md").
Proof.
  split; [done|]. split.
  { intros setup env. rewrite run_trace, constructed_trace.
    by destruct (openable env). }
  split.
  { intros env dir. split.
    - by apply constructed_outcome_congr.
    - by rewrite !constructed_trace. }
  split.
  { intros env p n Hp. apply constructed_outcome_congr; [|done].
    unfold resource, with_node. cbn.
    destruct n as [x|].
    - by apply lookup_insert_ne.
    - by apply lookup_delete_ne. }
  split; [eexists; split; reflexivity|].
  split; [eexists; split; reflexivity|].
  reflexivity.
Qed.

Lemma resource_resolved_against_cwd_witness :
  "/home/jake/python-rust-util/setup.cfg" ≠ resource_path Sample.env_T ∧
  fst (constructed
         (with_node "/home/jake/python-rust-util/setup.cfg"
            (Some (Regular true [])) Sample.env_T)) =
    fst (constructed Sample.env_T).
Proof.
  assert ("/home/jake/python-rust-util/setup.cfg" ≠ resource_path Sample.env_T)
    as Hother by (vm_compute; discriminate).
  split; [exact Hother|].
  destruct resource_resolved_against_cwd as (_ & _ & _ & Hframe & _).
  apply Hframe. exact Hother.
Defined.

(** ** Newline translation and the codecs *)

Section Newlines.

Lemma universal_newlines_other (c : ascii) (s : string) :
  Ascii.eqb c CR = false →
  universal_newlines (String c s) = String c (universal_newlines s).
Proof. intros Hc. cbn. by rewrite Hc. Qed.

(** What [read] returns holds no carriage return. *)
Lemma universal_newlines_has_no_CR (s : string) :
  has_CR (universal_newlines s) = false.
Proof.
  enough (has_CR (universal_newlines s) = false ∧
          ∀ c, has_CR (universal_newlines (String c s)) = false) as [H _]
    by exact H.
  induction s as [|c' s [IH IHc]].
  - split; [reflexivity|]. intros c. cbn. by destruct (Ascii.eqb c CR) eqn:Hc; cbn; rewrite ?Hc.
  - split; [apply IHc|]. intros c.
    cbn [universal_newlines]. destruct (Ascii.eqb c CR) eqn:Hc.
    + destruct (Ascii.eqb c' LF); cbn [has_CR]; [exact IH|apply IHc].
    + cbn [has_CR]. rewrite Hc. apply IHc.
Qed.

(** Translating twice is translating once. *)
Lemma universal_newlines_idempotent (s : string) :
  universal_newlines (universal_newlines s) = universal_newlines s.
Proof. apply universal_newlines_no_CR, universal_newlines_has_no_CR. Qed.

Lemma not_ascii_not_CR (b : byte) :
  is_ascii_byte b = false → Ascii.eqb (ascii_of_byte b) CR = false.
Proof. destruct b; first [reflexivity | discriminate]. Qed.

Lemma continuation_not_ascii (b : byte) :
  is_continuation b = true → is_ascii_byte b = false.
Proof. destruct b; first [reflexivity | discriminate]. Qed.

Lemma second_of_three_not_ascii (b0 b1 : byte) :
  second_of_three b0 b1 = true → is_ascii_byte b1 = false.
Proof.
  unfold second_of_three.
  destruct (Byte.to_N b0 =? 224)%N; [|destruct (Byte.to_N b0 =? 237)%N];
    destruct b1; first [reflexivity | discriminate].
Qed.

Lemma second_of_four_not_ascii (b0 b1 : byte) :
  second_of_four b0 b1 = true → is_ascii_byte b1 = false.
Proof.
  unfold second_of_four.
  destruct (Byte.to_N b0 =? 240)%N; [|destruct (Byte.to_N b0 =? 244)%N];
    destruct b1; first [reflexivity | discriminate].
Qed.

Lemma LF_is_ascii (b : byte) :
  Ascii.eqb (ascii_of_byte b) LF = true → is_ascii_byte b = true.
Proof. destruct b; first [reflexivity | discriminate]. Qed.

Lemma string_of_list_byte_cons (b : byte) (l : list byte) :
  string_of_list_byte (b :: l) = String (ascii_of_byte b) (string_of_list_byte l).
Proof. reflexivity. Qed.

Lemma list_byte_of_string_cons (c : ascii) (s : string) :
  list_byte_of_string (String c s) = byte_of_ascii c :: list_byte_of_string s.
Proof. reflexivity. Qed.

Lemma well_formed_utf8_ascii (b : byte) (l : list byte) :
  is_ascii_byte b = true → well_formed_utf8 (b :: l) = well_formed_utf8 l.
Proof. intros Hb. cbn [well_formed_utf8]. by rewrite Hb. Qed.

(** A byte outside ASCII passes through the translation unchanged. *)
Ltac keep b Hb :=
  rewrite (universal_newlines_other (ascii_of_byte b)) by (apply not_ascii_not_CR, Hb);
  rewrite list_byte_of_string_cons, byte_of_ascii_of_byte.

(** Translating the newlines of well-formed UTF-8 leaves well-formed UTF-8:
    a carriage return is never inside a multi-byte sequence. *)
Lemma well_formed_utf8_newlines_bounded (n : nat) (data : list byte) :
  (length data ≤ n)%nat →
  well_formed_utf8 data = true →
  well_formed_utf8
    (list_byte_of_string (universal_newlines (string_of_list_byte data))) = true.
Proof.
  revert data. induction n as [|n IH]; intros [|b0 rest] Hlen Hwf;
    try reflexivity; [cbn in Hlen; lia|].
  cbn [length] in Hlen.
  rewrite string_of_list_byte_cons.
  destruct (is_ascii_byte b0) eqn:Hb0.
  - rewrite (well_formed_utf8_ascii b0 rest Hb0) in Hwf.
    cbn [universal_newlines].
    destruct (Ascii.eqb (ascii_of_byte b0) CR) eqn:Hcr.
    + destruct rest as [|b1 rest1]; [reflexivity|].
      rewrite string_of_list_byte_cons.
      destruct (Ascii.eqb (ascii_of_byte b1) LF) eqn:Hlf.
      * rewrite list_byte_of_string_cons, well_formed_utf8_ascii by reflexivity.
        apply IH; [cbn [length] in Hlen; lia|].
        by rewrite (well_formed_utf8_ascii b1 rest1 (LF_is_ascii b1 Hlf)) in Hwf.
      * rewrite list_byte_of_string_cons, well_formed_utf8_ascii by reflexivity.
        rewrite <- string_of_list_byte_cons. apply IH; [lia|exact Hwf].
    + rewrite list_byte_of_string_cons, byte_of_ascii_of_byte.
      rewrite (well_formed_utf8_ascii b0 _ Hb0). apply IH; [lia|exact Hwf].
  - keep b0 Hb0.
    cbn [well_formed_utf8] in Hwf |- *. rewrite Hb0 in Hwf |- *.
    destruct (in_range 194 223 b0).
    { destruct rest as [|b1 rest1]; [discriminate|].
      apply andb_prop in Hwf as [Hb1 Hwf].
      rewrite string_of_list_byte_cons.
      keep b1 (continuation_not_ascii b1 Hb1).
      rewrite Hb1. apply IH; [cbn [length] in Hlen; lia|exact Hwf]. }
    destruct (in_range 224 239 b0).
    { destruct rest as [|b1 [|b2 rest2]]; try discriminate.
      apply andb_prop in Hwf as [Hwf Hrest]. apply andb_prop in Hwf as [Hb1 Hb2].
      rewrite !string_of_list_byte_cons.
      keep b1 (second_of_three_not_ascii b0 b1 Hb1).
      keep b2 (continuation_not_ascii b2 Hb2).
      rewrite Hb1, Hb2. apply IH; [cbn [length] in Hlen; lia|exact Hrest]. }
    destruct (in_range 240 244 b0); [|discriminate].
    destruct rest as [|b1 [|b2 [|b3 rest3]]]; try discriminate.
    apply andb_prop in Hwf as [Hwf Hrest]. apply andb_prop in Hwf as [Hwf Hb3].
    apply andb_prop in Hwf as [Hb1 Hb2].
    rewrite !string_of_list_byte_cons.
    keep b1 (second_of_four_not_ascii b0 b1 Hb1).
    keep b2 (continuation_not_ascii b2 Hb2).
    keep b3 (continuation_not_ascii b3 Hb3).
    rewrite Hb1, Hb2, Hb3. apply IH; [cbn [length] in Hlen; lia|exact Hrest].
Qed.

End Newlines.

(** ** Further properties of the script *)

(** A descriptor is built only from a README that opens and decodes. *)
Lemma constructed_inv (env : Env) (d : gmap string value) :
  fst (constructed env) = inr d →
  ∃ (data : list byte) (text : string),
    resource env = Some (Regular true data) ∧ codec env data = Some text.
Proof.
  construction_cases env; rewrite Hc; cbn [fst]; try discriminate.
  intros _. by exists data, text.
Qed.

(** X1: whatever line endings README.md uses, the long_description of a
    descriptor that was built holds no carriage return. *)
Theorem long_description_has_no_carriage_return
    (env : Env) (d : gmap string value) :
  fst (constructed env) = inr d →
  ∃ s : string,
    d !! "long_description" = Some (VStr s) ∧ has_CR s = false.
Proof.
  intros Hd. destruct (constructed_inv env d Hd) as (data & text & Hnode & Hcodec).
  rewrite (constructed_readable env data text Hnode Hcodec) in Hd.
  cbn [fst] in Hd. injection Hd as <-.
  exists (universal_newlines text). split; [reflexivity|].
  apply universal_newlines_has_no_CR.
Qed.

Lemma long_description_has_no_carriage_return_witness :
  ∃ d : gmap string value,
    fst (constructed Sample.env_crlf) = inr d ∧
    ∃ s : string,
      d !! "long_description" = Some (VStr s) ∧ has_CR s = false.
Proof.
  eexists. split; [reflexivity|].
  apply (long_description_has_no_carriage_return Sample.env_crlf). reflexivity.
Defined.



(** X3: the script returns normally exactly when README.md opens, its
    bytes decode, and the orchestrator, called on the descriptor built,
    returns. *)
Theorem run_returns_iff (setup : Orchestrator) (env : Env) :
  fst (run setup env) = inr () ↔
  ∃ (data : list byte) (text : string) (d : gmap string value),
    resource env = Some (Regular true data) ∧
    codec env data = Some text ∧
    fst (constructed env) = inr d ∧
    snd (setup d env) = None.
Proof.
  rewrite run_outcome. split.
  - destruct (fst (constructed env)) as [e|d] eqn:Hd; [discriminate|].
    destruct (constructed_inv env d Hd) as (data & text & Hnode & Hcodec).
    destruct (snd (setup d env)) eqn:Hsetup; [discriminate|].
    intros _. by exists data, text, d.
  - intros (data & text & d & _ & _ & -> & ->). reflexivity.
Qed.

Lemma run_returns_iff_witness :
  fst (run Sample.building_setup Sample.env_T) = inr ().
Proof.
  apply (run_returns_iff Sample.building_setup Sample.env_T).
  eexists [x54], "T", _. repeat split; reflexivity.
Defined.

(** X4: an exception that ends a run was raised either by the construction,
    in which case nothing was handed over and the orchestrator did nothing,
    or by the orchestrator on the one descriptor it was handed. *)
Theorem run_failure_origin (setup : Orchestrator) (env : Env) (e : exn) :
  fst (run setup env) = inl e →
  (fst (constructed env) = inl e ∧
   handed_off (st_trace (snd (run setup env))) = [] ∧
   orchestrator_actions (st_trace (snd (run setup env))) = []) ∨
  (∃ d : gmap string value,
     fst (constructed env) = inr d ∧
     snd (setup d env) = Some e ∧
     handed_off (st_trace (snd (run setup env))) = [d] ∧
     orchestrator_actions (st_trace (snd (run setup env))) = fst (setup d env)).
Proof.
  rewrite run_outcome, handed_off_run, run_trace, orchestrator_actions_app.
  rewrite constructed_trace.
  destruct (fst (constructed env)) as [e'|d].
  - intros [= <-]. left. by destruct (openable env).
  - destruct (snd (setup d env)) as [e'|] eqn:Hsetup; [|discriminate].
    intros [= <-]. right. exists d. repeat split; try assumption.
    destruct (openable env); cbn; apply orchestrator_actions_orchestrator.
Qed.

Lemma run_failure_origin_witness :
  ∃ d : gmap string value,
    fst (constructed Sample.env_T) = inr d ∧
    snd (Sample.failing_setup d Sample.env_T) =
      Some (BuildError ToolchainMissing "cargo not found") ∧
    handed_off (st_trace (snd (run Sample.failing_setup Sample.env_T))) = [d].
Proof.
  destruct (run_failure_origin Sample.failing_setup Sample.env_T
              (BuildError ToolchainMissing "cargo not found"))
    as [[Hfail _]|(d & Hd & Hsetup & Hoff & _)]; [reflexivity|discriminate Hfail|].
  exists d. repeat split; assumption.
Defined.

(** X5: under a UTF-8 locale, the long_description of a descriptor that was
    built is again well-formed UTF-8: newline translation never cuts a
    multi-byte sequence. *)
Theorem long_description_is_well_formed_utf8
    (env : Env) (d : gmap string value) :
  codec env = utf8_codec →
  fst (constructed env) = inr d →
  ∃ s : string,
    d !! "long_description" = Some (VStr s) ∧
    well_formed_utf8 (list_byte_of_string s) = true.
Proof.
  intros Hutf8 Hd.
  destruct (constructed_inv env d Hd) as (data & text & Hnode & Hcodec).
  rewrite (constructed_readable env data text Hnode Hcodec) in Hd.
  cbn [fst] in Hd. injection Hd as <-.
  exists (universal_newlines text). split; [reflexivity|].
  rewrite Hutf8 in Hcodec.
  rewrite (utf8_codec_content data text Hcodec).
  apply (well_formed_utf8_newlines_bounded (length data)); [lia|].
  unfold utf8_codec in Hcodec. by destruct (well_formed_utf8 data).
Qed.

Lemma long_description_is_well_formed_utf8_witness :
  ∃ (d : gmap string value) (s : string),
    fst (constructed (Sample.checkout [xc3; xa9; x0d; x0a])) = inr d ∧
    d !! "long_description" = Some (VStr s) ∧
    well_formed_utf8 (list_byte_of_string s) = true.
Proof.
  destruct (long_description_is_well_formed_utf8
              (Sample.checkout [xc3; xa9; x0d; x0a])
              (match fst (constructed (Sample.checkout [xc3; xa9; x0d; x0a])) with
               | inr d => d
               | inl _ => ∅
               end))
    as (s & Hs & Hwf); [reflexivity|reflexivity|].
  eexists _, s. split; [reflexivity|]. split; assumption.
Defined.

(** X6: under a UTF-8 locale the script reaches a fixed point on its own
    output: when README.md is replaced by the bytes of the long_description
    just built, the script builds the same descriptor again. *)
Theorem descriptor_stable_under_rewriting_readme
    (env : Env) (data : list byte) (text : string) :
  codec env = utf8_codec →
  resource env = Some (Regular true data) →
  utf8_codec data = Some text →
  ∃ d : gmap string value,
    fst (constructed env) = inr d ∧
    d !! "long_description" = Some (VStr (universal_newlines text)) ∧
    fst (constructed
           (with_node (resource_path env)
              (Some (Regular true (list_byte_of_string (universal_newlines text))))
              env)) = inr d.
Proof.
  intros Hutf8 Hnode Hcodec.
  assert (codec env data = Some text) as Hcodec' by (by rewrite Hutf8).
  rewrite (constructed_readable env data text Hnode Hcodec').
  eexists. split; [reflexivity|]. split; [reflexivity|].
  set (out := list_byte_of_string (universal_newlines text)).
  set (env' := with_node (resource_path env) (Some (Regular true out)) env).
  assert (resource env' = Some (Regular true out)) as Hnode'.
  { unfold resource, env', with_node. cbn. apply lookup_insert_eq. }
  assert (codec env' out = Some (universal_newlines text)) as Hout.
  { change (codec env') with (codec env). rewrite Hutf8. unfold utf8_codec, out.
    rewrite (utf8_codec_content data text Hcodec).
    rewrite (well_formed_utf8_newlines_bounded (length data) data);
      [|lia|unfold utf8_codec in Hcodec; by destruct (well_formed_utf8 data)].
    by rewrite string_of_list_byte_of_string. }
  rewrite (constructed_readable env' out _ Hnode' Hout).
  by rewrite universal_newlines_idempotent.
Qed.

Lemma descriptor_stable_under_rewriting_readme_witness :
  ∃ d : gmap string value,
    fst (constructed Sample.env_crlf) = inr d ∧
    fst (constructed (Sample.checkout [x54; x0a])) = inr d.
Proof.
  destruct (descriptor_stable_under_rewriting_readme Sample.env_crlf
              [x54; x0d; x0a] ("T" ++ Sample.CRLF))
    as (d & Hd & _ & Hd'); [reflexivity|reflexivity|reflexivity|].
  exists d. split; [exact Hd|]. rewrite <- Hd'. reflexivity.
Defined.

(** X7: a README that decodes as ASCII gives the same outcome, and a
    descriptor, under an ASCII locale and under a UTF-8 locale. *)
Theorem ascii_readme_locale_independent
    (env : Env) (data : list byte) (text : string) :
  resource env = Some (Regular true data) →
  ascii_codec data = Some text →
  ∃ d : gmap string value,
    fst (constructed (with_codec ascii_codec env)) = inr d ∧
    fst (constructed (with_codec utf8_codec env)) = inr d.
Proof.
  intros Hnode Hascii.
  pose proof (ascii_codec_utf8_codec data text Hascii) as Hutf8.
  rewrite (constructed_readable (with_codec ascii_codec env) data text Hnode Hascii).
  rewrite (constructed_readable (with_codec utf8_codec env) data text Hnode Hutf8).
  eexists. split; reflexivity.
Qed.

Lemma ascii_readme_locale_independent_witness :
  ∃ d : gmap string value,
    fst (constructed (with_codec ascii_codec Sample.env_T)) = inr d ∧
    fst (constructed (with_codec utf8_codec Sample.env_T)) = inr d.
Proof.
  apply (ascii_readme_locale_independent Sample.env_T [x54] "T"); reflexivity.
Defined.
